(** * UseAutelIrSdkSample: the sample driver of the Autel IR temperature parser SDK

    The repository holds one translation unit, [main.cpp].  It declares three
    receiver aggregates, calls the SDK symbol [GetIrPhotoTempInfo] once on a
    hard-coded sample image and prints a one-line verdict.

    The development has two parts.
    - [Driver]: a shallow embedding of [main.cpp].  The SDK symbol is linked
      from a binary library, so the driver is a program over an instruction
      set whose call instruction is answered by an arbitrary implementation of
      the symbol; every theorem about the driver quantifies over all of them.
    - [Parser]: the interface contract of the SDK operation, which has no
      source in the repository. *)

From Stdlib Require Import ZArith String Ascii List Lia.
From stdpp Require Import base gmap strings list.

Local Open Scope Z_scope.

(** C++ [float]: an IEEE-754 binary32 datum, kept as its 32-bit pattern.  The
    driver performs no arithmetic on it. *)
Definition float : Type := Z.

(** The line terminator the two messages end with: ['\r'] then ['\n']. *)
Definition CRLF : string := String "013"%char (String "010"%char EmptyString).

(** ** The receivers

    [TempStatInfo] and [Autel_IR_INFO_S] are declared in the SDK header
    [Autel_IrTempParser.h], which is not part of the sources; both are taken
    as parameters. *)
Section Receivers.
Context {TempStatInfo Autel_IR_INFO_S : Type}.

(** The three locals of [main] handed to the SDK by reference. *)
Record Receivers : Type := mkReceivers {
  statInfo : TempStatInfo;
  mapIrInfo : gmap string Autel_IR_INFO_S;
  vecTempArray : list (list float)
}.

(** [TempStatInfo statInfo;] is default-initialised: what it holds is fixed
    by the header (a constructor, or nothing at all), hence [stat0].
    [std::map] and [std::vector] start empty. *)
Definition fresh_receivers (stat0 : TempStatInfo) : Receivers :=
  {| statInfo := stat0; mapIrInfo := ∅; vecTempArray := [] |}.
End Receivers.

Arguments Receivers : clear implicits.

Module Driver.

Inductive Receiver : Type := r_statInfo | r_mapIrInfo | r_vecTempArray.

Section Program.
Context {TempStatInfo Autel_IR_INFO_S : Type}.

Abbreviation Recv := (Receivers TempStatInfo Autel_IR_INFO_S).

(** An implementation of
    [int GetIrPhotoTempInfo(const char*, int, int, TempStatInfo&,
                            std::map<...>&, std::vector<...>&)]:
    from the arguments and the receivers as they are on entry, the status
    and the receivers as they are on return.  An [int] status is a [Z];
    nothing below depends on its range. *)
Definition SDK : Type := string → Z → Z → Recv → Z * Recv.

(** What a run does that the outside can see. *)
Inductive Event : Type :=
| EvCall (path : string) (width height : Z) (entry : Recv) (status : Z)
| EvLoad (which : Receiver)
| EvPrintf (text : string).

(** Programs over the frame of [main].  [Call] passes the frame's three
    receivers by reference; a [Load*] is any use of a receiver's content by
    the driver itself. *)
Inductive Prog (A : Type) : Type :=
| Return (a : A)
| Call (path : string) (width height : Z) (k : Z → Prog A)
| LoadStat (k : TempStatInfo → Prog A)
| LoadMap (k : gmap string Autel_IR_INFO_S → Prog A)
| LoadVec (k : list (list float) → Prog A)
| Printf (text : string) (k : Prog A).

Arguments Return {A} a.
Arguments Call {A} path width height k.
Arguments LoadStat {A} k.
Arguments LoadMap {A} k.
Arguments LoadVec {A} k.
Arguments Printf {A} text k.

Fixpoint bind {A B : Type} (p : Prog A) (f : A → Prog B) : Prog B :=
  match p with
  | Return a => f a
  | Call path w h k => Call path w h (λ s, bind (k s) f)
  | LoadStat k => LoadStat (λ v, bind (k v) f)
  | LoadMap k => LoadMap (λ v, bind (k v) f)
  | LoadVec k => LoadVec (λ v, bind (k v) f)
  | Printf text k => Printf text (bind k f)
  end.

#[local] Instance prog_ret : MRet Prog := λ A a, Return a.
#[local] Instance prog_bind : MBind Prog := λ A B f p, bind p f.

Definition GetIrPhotoTempInfo (path : string) (width height : Z) : Prog Z :=
  Call path width height Return.

Definition printf (text : string) : Prog unit := Printf text (Return tt).

(** The result of a run: the events in order, the frame at the end and
    the returned value. *)
Record Outcome (A : Type) : Type := mkOutcome {
  trace : list Event;
  frame : Recv;
  value : A
}.
Arguments mkOutcome {A} trace frame value.
Arguments trace {A} o.
Arguments frame {A} o.
Arguments value {A} o.

Definition emit {A : Type} (e : Event) (o : Outcome A) : Outcome A :=
  mkOutcome (e :: trace o) (frame o) (value o).

Fixpoint run {A : Type} (sdk : SDK) (p : Prog A) (fr : Recv) : Outcome A :=
  match p with
  | Return a => mkOutcome [] fr a
  | Call path w h k =>
      let '(status, fr') := sdk path w h fr in
      emit (EvCall path w h fr status) (run sdk (k status) fr')
  | LoadStat k => emit (EvLoad r_statInfo) (run sdk (k (statInfo fr)) fr)
  | LoadMap k => emit (EvLoad r_mapIrInfo) (run sdk (k (mapIrInfo fr)) fr)
  | LoadVec k =>
      emit (EvLoad r_vecTempArray) (run sdk (k (vecTempArray fr)) fr)
  | Printf text k => emit (EvPrintf text) (run sdk k fr)
  end.

(** *** Projections of a trace *)

(** The characters handed to standard output, in order (what the C runtime
    does to them afterwards is outside the program). *)
Fixpoint stdout (t : list Event) : string :=
  match t with
  | [] => ""
  | EvPrintf text :: t' => text +:+ stdout t'
  | _ :: t' => stdout t'
  end.

(** The [printf] calls, one entry per call. *)
Fixpoint writes (t : list Event) : list string :=
  match t with
  | [] => []
  | EvPrintf text :: t' => text :: writes t'
  | _ :: t' => writes t'
  end.

(** The SDK calls with their arguments (path, width, height, receivers on
    entry). *)
Fixpoint calls (t : list Event) : list (string * Z * Z * Recv) :=
  match t with
  | [] => []
  | EvCall path w h entry _ :: t' => (path, w, h, entry) :: calls t'
  | _ :: t' => calls t'
  end.

(** The receivers the driver itself read. *)
Fixpoint loads (t : list Event) : list Receiver :=
  match t with
  | [] => []
  | EvLoad which :: t' => which :: loads t'
  | _ :: t' => loads t'
  end.

(** *** [main.cpp] *)

Definition main (argc : Z) (argv : list string) : Prog Z :=
  let filePath := "../test/IRX_0001_south.jpg" in
  status ← GetIrPhotoTempInfo filePath 640 512;
  (if (0 =? status)%Z
   then printf ("parse ok." +:+ CRLF)
   else printf ("parse fail." +:+ CRLF));;
  Return 0.

(** One run of the process: the frame is built by the three declarations
    (lines 9-11), then the body runs against the linked library. *)
Definition run_main (sdk : SDK) (stat0 : TempStatInfo)
    (argc : Z) (argv : list string) : Outcome Z :=
  run sdk (main argc argv) (fresh_receivers stat0).

(** The status the library returns to the call [main] makes. *)
Definition sample_status (sdk : SDK) (stat0 : TempStatInfo) : Z :=
  fst (sdk "../test/IRX_0001_south.jpg" 640 512 (fresh_receivers stat0)).

(** The message [main] prints for a status. *)
Definition verdict (status : Z) : string :=
  if (0 =? status)%Z then "parse ok." +:+ CRLF else "parse fail." +:+ CRLF.

Definition seq_outcome {A B : Type} (o : Outcome A) (o' : Outcome B)
    : Outcome B :=
  mkOutcome (trace o ++ trace o') (frame o') (value o').

End Program.

Arguments Prog : clear implicits.
Arguments Return {TempStatInfo Autel_IR_INFO_S A} a.
Arguments Call {TempStatInfo Autel_IR_INFO_S A} path width height k.
Arguments LoadStat {TempStatInfo Autel_IR_INFO_S A} k.
Arguments LoadMap {TempStatInfo Autel_IR_INFO_S A} k.
Arguments LoadVec {TempStatInfo Autel_IR_INFO_S A} k.
Arguments Printf {TempStatInfo Autel_IR_INFO_S A} text k.
Arguments Event : clear implicits.
Arguments EvLoad {TempStatInfo Autel_IR_INFO_S} which.
Arguments EvPrintf {TempStatInfo Autel_IR_INFO_S} text.
Arguments SDK : clear implicits.
Arguments Outcome : clear implicits.
Arguments mkOutcome {TempStatInfo Autel_IR_INFO_S A} trace frame value.
Arguments trace {TempStatInfo Autel_IR_INFO_S A} o.
Arguments frame {TempStatInfo Autel_IR_INFO_S A} o.
Arguments value {TempStatInfo Autel_IR_INFO_S A} o.
End Driver.

(** * The Parser contract

    The SDK operation is delivered as a binary library; none of its code is in
    the sources.  The spec describes it as
    [ExtractInfraredTemperatures(path, width, height, outStats, outMetadata,
    outField) → status]. *)
Module Parser.

(** Modelled from the spec: the failures the status reports, "file missing,
    malformed container, dimension mismatch, unsupported firmware variant,
    decode error". *)
Inductive Failure : Type :=
| FileMissing
| MalformedContainer
| DimensionMismatch
| UnsupportedFirmware
| DecodeError.

Section Contract.
Context {TempStatInfo Autel_IR_INFO_S : Type}.

Abbreviation Recv := (Receivers TempStatInfo Autel_IR_INFO_S).

(** Modelled from the spec: what the application markers of an infrared
    still embed, "a calibration metadata block encoded as key-value pairs"
    and "a raw 16-bit-per-sample thermal image" with its dimensions. *)
Record Payload : Type := mkPayload {
  embedded_width : N;
  embedded_height : N;
  metadata : gmap string Autel_IR_INFO_S;
  raw : list Z
}.

(** The parts of the contract the spec leaves to the vendor. *)

(** Steps 1 and 2, "locate the embedded thermal payload" and "read
    calibration and environmental metadata into the keyed map": the marker
    identifier and the payload layout are the camera vendor's. *)
Variable locate_payload : list Byte.byte → Failure + Payload.

(** Step 3, "decode the raw sensor readings into physical temperatures
    using the calibration parameters". *)
Variable to_temperature : gmap string Autel_IR_INFO_S → Z → float.

(** Step 5, "compute min/max/average (and any additional statistics
    defined by the record)" over the field. *)
Variable statistics : list (list float) → TempStatInfo.

(** The status a failure is reported with; the spec fixes only "zero on
    success, non-zero on any failure". *)
Variable status_of : Failure → Z.

(** "On failure, the aggregates' contents are unspecified". *)
Variable unspecified : Failure → Recv → Recv.

(** Modelled from the spec: step 4, "populate the two-dimensional field
    row-major", [height] rows of [width] samples each. *)
Fixpoint rows (height width : nat) (samples : list float)
    : list (list float) :=
  match height with
  | O => []
  | S height' =>
      take width samples :: rows height' width (drop width samples)
  end.

(** Modelled from the spec: the decode of one file, after section 4.2.  The
    declared dimensions "must match the payload's embedded dimensions or the
    call fails"; a payload that does not hold [width * height] samples is a
    decode error (scenario S5, truncated payload). *)
Definition decode (width height : Z) (file : list Byte.byte)
    : Failure + Recv :=
  match locate_payload file with
  | inl f => inl f
  | inr p =>
      if negb ((Z.of_N (embedded_width p) =? width)
               && (Z.of_N (embedded_height p) =? height))
      then inl DimensionMismatch
      else if negb (Z.of_nat (length (raw p)) =? width * height)
      then inl DecodeError
      else
        let field :=
          rows (Z.to_nat height) (Z.to_nat width)
               (to_temperature (metadata p) <$> raw p) in
        inr {| statInfo := statistics field;
               mapIrInfo := metadata p;
               vecTempArray := field |}
  end.

(** Modelled from the spec: the operation of section 4.2.  On success
    [outStats] is "fully overwritten", [outMetadata] "cleared and
    repopulated", [outField] "resized to height rows of width samples".
    The file system is threaded through and returned as it was: "no
    caching, no side files". *)
Definition ExtractInfraredTemperatures
    (fs : gmap string (list Byte.byte)) (path : string) (width height : Z)
    (out : Recv) : Z * Recv * gmap string (list Byte.byte) :=
  match fs !! path with
  | None => (status_of FileMissing, unspecified FileMissing out, fs)
  | Some file =>
      match decode width height file with
      | inl f => (status_of f, unspecified f out, fs)
      | inr out' => (0, out', fs)
      end
  end.

(** The operation as the symbol the driver links against, in a process
    whose file system is [fs]. *)
Definition linked (fs : gmap string (list Byte.byte))
    : Driver.SDK TempStatInfo Autel_IR_INFO_S :=
  λ path width height out,
    (ExtractInfraredTemperatures fs path width height out).1.

End Contract.

Arguments Payload : clear implicits.
Arguments mkPayload {Autel_IR_INFO_S} _ _ _ _.
End Parser.

(** * Sample instances

    Small concrete libraries and files on which the statements below are
    evaluated. *)
Module Sample.
Import Driver Parser.

(** A library whose call succeeds and fills the three receivers. *)
Definition sdk_ok : SDK Z Z :=
  λ _ _ _ _,
    (0, {| statInfo := 25;
           mapIrInfo := {[ "Emissivity" := 95 ]};
           vecTempArray := [[1; 2]; [3; 4]] |}).

(** A library whose call fails with [code] and leaves the receivers as they
    were. *)
Definition sdk_fail (code : Z) : SDK Z Z := λ _ _ _ out, (code, out).

(** A library whose call fails with [code] after scribbling on the
    receivers. *)
Definition sdk_dirty (code : Z) : SDK Z Z :=
  λ _ _ _ _,
    (code, {| statInfo := -1;
              mapIrInfo := {[ "Distance" := 7 ]};
              vecTempArray := [[9]] |}).

(** A toy container: one byte of width, one byte of height, then one byte
    per raw sample; no metadata. *)
Definition toy_locate (file : list Byte.byte) : Failure + Payload Z :=
  match file with
  | w :: h :: samples =>
      inr (mkPayload (Byte.to_N w) (Byte.to_N h) ∅
                     ((λ b, Z.of_N (Byte.to_N b)) <$> samples))
  | _ => inl MalformedContainer
  end.

Definition toy_temperature (_ : gmap string Z) (sample : Z) : float :=
  sample.

(** The number of samples stands in for the statistics record. *)
Definition toy_statistics (field : list (list float)) : Z :=
  Z.of_nat (length (concat field)).

Definition toy_status (_ : Failure) : Z := -1.

Definition toy_unspecified (_ : Failure) (out : Receivers Z Z)
    : Receivers Z Z :=
  {| statInfo := statInfo out + 1;
     mapIrInfo := mapIrInfo out;
     vecTempArray := [] :: vecTempArray out |}.

Definition toy_parser :=
  ExtractInfraredTemperatures toy_locate toy_temperature toy_statistics
                              toy_status toy_unspecified.

(** A file system with one 3 x 2 infrared still. *)
Definition toy_fs : gmap string (list Byte.byte) :=
  {[ "ir.jpg" := [Byte.x03; Byte.x02;
                  Byte.x0a; Byte.x0b; Byte.x0c;
                  Byte.x14; Byte.x15; Byte.x16] ]}.
End Sample.

(** * The driver *)
Section DriverProperties.
Import Driver.
Context {TempStatInfo Autel_IR_INFO_S : Type}.

Abbreviation Sdk := (SDK TempStatInfo Autel_IR_INFO_S).
Abbreviation Trace := (list (Event TempStatInfo Autel_IR_INFO_S)).

(** Running [p] and then [f] on its value is running [p], then running [f]
    from the frame [p] left; the traces are concatenated. *)
Lemma run_bind {A B : Type} (sdk : Sdk)
    (p : Prog TempStatInfo Autel_IR_INFO_S A)
    (f : A → Prog TempStatInfo Autel_IR_INFO_S B) :
  ∀ fr, run sdk (bind p f) fr =
        seq_outcome (run sdk p fr)
                    (run sdk (f (value (run sdk p fr)))
                             (frame (run sdk p fr))).
Proof.
  induction p as [a|path w h k IH|k IH|k IH|k IH|text k IH]; intros fr;
    simpl.
  - unfold seq_outcome. simpl. by destruct (run sdk (f a) fr).
  - destruct (sdk path w h fr) as [status fr']. by rewrite IH.
  - by rewrite IH.
  - by rewrite IH.
  - by rewrite IH.
  - by rewrite IH.
Qed.

Lemma run_GetIrPhotoTempInfo (sdk : Sdk) path w h fr :
  run sdk (GetIrPhotoTempInfo path w h) fr =
  mkOutcome [EvCall path w h fr (sdk path w h fr).1]
            (sdk path w h fr).2 (sdk path w h fr).1.
Proof. simpl. by destruct (sdk path w h fr). Qed.

(** Every run of [main] in closed form. *)
Lemma run_main_eq (sdk : Sdk) (stat0 : TempStatInfo) argc argv :
  run_main sdk stat0 argc argv =
  mkOutcome
    [EvCall "../test/IRX_0001_south.jpg" 640 512 (fresh_receivers stat0)
            (sample_status sdk stat0);
     EvPrintf (verdict (sample_status sdk stat0))]
    (sdk "../test/IRX_0001_south.jpg" 640 512 (fresh_receivers stat0)).2
    0.
Proof.
  unfold run_main, main, mbind, prog_bind.
  rewrite run_bind, run_GetIrPhotoTempInfo. simpl value. simpl frame.
  rewrite run_bind. unfold seq_outcome, sample_status, verdict.
  by destruct (0 =? _)%Z.
Qed.

Lemma verdict_zero : verdict 0 = "parse ok." +:+ CRLF.
Proof. done. Qed.

Lemma verdict_nonzero (status : Z) :
  status ≠ 0 → verdict status = "parse fail." +:+ CRLF.
Proof. unfold verdict. intros Hs. by destruct (Z.eqb_spec 0 status). Qed.

(** C1. Whenever the library returns status 0 to the call, the run makes
    exactly one [printf], of [parse ok.] followed by CR LF, and these are
    all the characters on standard output. *)
Theorem success_token (sdk : Sdk) (stat0 : TempStatInfo) argc argv :
  sample_status sdk stat0 = 0 →
  writes (trace (run_main sdk stat0 argc argv)) = ["parse ok." +:+ CRLF] ∧
  stdout (trace (run_main sdk stat0 argc argv)) = "parse ok." +:+ CRLF.
Proof.
  intros Hs. rewrite run_main_eq, Hs, verdict_zero. by split.
Qed.

(** C2. Whenever the library returns a non-zero status, the run makes
    exactly one [printf], of [parse fail.] followed by CR LF, these are all
    the characters on standard output, and the driver loads from none of
    [statInfo], [mapIrInfo], [vecTempArray]. *)
Theorem failure_silence (sdk : Sdk) (stat0 : TempStatInfo) argc argv :
  sample_status sdk stat0 ≠ 0 →
  writes (trace (run_main sdk stat0 argc argv)) = ["parse fail." +:+ CRLF] ∧
  stdout (trace (run_main sdk stat0 argc argv)) = "parse fail." +:+ CRLF ∧
  loads (trace (run_main sdk stat0 argc argv)) = [].
Proof.
  intros Hs. rewrite run_main_eq. simpl. by rewrite (verdict_nonzero _ Hs).
Qed.

(** C3. Against every library, a run of [main] is: one call of the parser
    with the constant path [../test/IRX_0001_south.jpg], width 640, height
    512 and the three freshly declared receivers, followed by one [printf]
    chosen by the returned integer (zero: success, non-zero: failure); the
    call is the only one. *)
Theorem driver_algorithm (sdk : Sdk) (stat0 : TempStatInfo) argc argv :
  trace (run_main sdk stat0 argc argv) =
    [EvCall "../test/IRX_0001_south.jpg" 640 512 (fresh_receivers stat0)
            (sample_status sdk stat0);
     EvPrintf (if decide (sample_status sdk stat0 = 0)
               then "parse ok." +:+ CRLF else "parse fail." +:+ CRLF)] ∧
  calls (trace (run_main sdk stat0 argc argv)) =
    [("../test/IRX_0001_south.jpg", 640, 512,
      {| statInfo := stat0; mapIrInfo := ∅; vecTempArray := [] |})].
Proof.
  rewrite run_main_eq. split; [|done]. simpl. case_decide as Hs.
  - by rewrite Hs.
  - by rewrite (verdict_nonzero _ Hs).
Qed.

(** C4. The exit code is zero in every run, whatever status the library
    returns. *)
Theorem exit_code_zero (sdk : Sdk) (stat0 : TempStatInfo) argc argv :
  value (run_main sdk stat0 argc argv) = 0.
Proof. by rewrite run_main_eq. Qed.

(** C8. Two runs that differ only in [argc] and [argv] have the same
    standard output, pass the same arguments to the parser and exit with
    the same code; indeed they are the same run. *)
Theorem arguments_ignored (sdk : Sdk) (stat0 : TempStatInfo)
    argc argv argc' argv' :
  stdout (trace (run_main sdk stat0 argc argv)) =
    stdout (trace (run_main sdk stat0 argc' argv')) ∧
  calls (trace (run_main sdk stat0 argc argv)) =
    calls (trace (run_main sdk stat0 argc' argv')) ∧
  value (run_main sdk stat0 argc argv) =
    value (run_main sdk stat0 argc' argv') ∧
  run_main sdk stat0 argc argv = run_main sdk stat0 argc' argv'.
Proof. by rewrite !run_main_eq. Qed.

(** C9. Two runs in which the library returns the same status write the
    same standard output and exit with the same code, whatever the two
    libraries stored in the receivers and whatever [statInfo] held at its
    declaration; neither run loads from a receiver. *)
Theorem output_depends_on_status_only (sdk1 sdk2 : Sdk)
    (stat1 stat2 : TempStatInfo) argc1 argv1 argc2 argv2 :
  sample_status sdk1 stat1 = sample_status sdk2 stat2 →
  stdout (trace (run_main sdk1 stat1 argc1 argv1)) =
    stdout (trace (run_main sdk2 stat2 argc2 argv2)) ∧
  value (run_main sdk1 stat1 argc1 argv1) =
    value (run_main sdk2 stat2 argc2 argv2) ∧
  loads (trace (run_main sdk1 stat1 argc1 argv1)) = [] ∧
  loads (trace (run_main sdk2 stat2 argc2 argv2)) = [].
Proof. intros Hs. rewrite !run_main_eq. simpl. by rewrite Hs. Qed.

(** C10. For every integer the library may return, negative ones included,
    the run prints exactly one message: it is [parse ok.] exactly when the
    status is zero and [parse fail.] exactly when it is not, and the two
    messages differ. *)
Theorem one_message_per_status (sdk : Sdk) (stat0 : TempStatInfo) argc argv :
  let status := sample_status sdk stat0 in
  let out := run_main sdk stat0 argc argv in
  length (writes (trace out)) = 1%nat ∧
  (stdout (trace out) = "parse ok." +:+ CRLF ↔ status = 0) ∧
  (stdout (trace out) = "parse fail." +:+ CRLF ↔ status ≠ 0) ∧
  "parse ok." +:+ CRLF ≠ "parse fail." +:+ CRLF.
Proof.
  intros status out. subst out. rewrite run_main_eq. fold status. simpl.
  split; [done|]. destruct (decide (status = 0)) as [Hs|Hs].
  - rewrite Hs. split_and!; [done| |discriminate]. split; [discriminate|done].
  - rewrite (verdict_nonzero _ Hs).
    split_and!; [|done|discriminate]. split; [discriminate|done].
Qed.

End DriverProperties.

(** * The parser contract *)
Section ParserProperties.
Import Parser.
Context {TempStatInfo Autel_IR_INFO_S : Type}.
Variable locate_payload : list Byte.byte → Failure + Payload Autel_IR_INFO_S.
Variable to_temperature : gmap string Autel_IR_INFO_S → Z → float.
Variable statistics : list (list float) → TempStatInfo.
Variable status_of : Failure → Z.
Variable unspecified :
  Failure → Receivers TempStatInfo Autel_IR_INFO_S
          → Receivers TempStatInfo Autel_IR_INFO_S.

(** "non-zero on any failure". *)
Hypothesis status_of_nonzero : ∀ f, status_of f ≠ 0.

Abbreviation parse :=
  (ExtractInfraredTemperatures locate_payload to_temperature statistics
                               status_of unspecified).

(** ** The row-major layout *)

Lemma rows_length (height width : nat) (samples : list float) :
  length (rows height width samples) = height.
Proof.
  revert samples. induction height as [|height IH]; intros samples; simpl;
    [done|]. by rewrite IH.
Qed.

Lemma rows_width (height width : nat) (samples : list float) :
  (height * width ≤ length samples)%nat →
  Forall (λ row, length row = width) (rows height width samples).
Proof.
  revert samples. induction height as [|height IH]; intros samples Hlen;
    simpl; constructor.
  - rewrite length_take. lia.
  - apply IH. rewrite length_drop. lia.
Qed.

(** Reading the rows back in order gives the decoded samples. *)
Lemma concat_rows (height width : nat) (samples : list float) :
  length samples = (height * width)%nat →
  concat (rows height width samples) = samples.
Proof.
  revert samples. induction height as [|height IH]; intros samples Hlen;
    simpl.
  - by destruct samples.
  - rewrite IH, take_drop; [done|]. rewrite length_drop. lia.
Qed.

(** ** Success *)

(** What a successful decode went through. *)
Lemma decode_inr (width height : Z) (file : list Byte.byte)
    (out : Receivers TempStatInfo Autel_IR_INFO_S) :
  decode locate_payload to_temperature statistics width height file
    = inr out →
  ∃ p, locate_payload file = inr p ∧
       Z.of_N (embedded_width p) = width ∧
       Z.of_N (embedded_height p) = height ∧
       Z.of_nat (length (raw p)) = width * height ∧
       vecTempArray out =
         rows (Z.to_nat height) (Z.to_nat width)
              (to_temperature (metadata p) <$> raw p) ∧
       mapIrInfo out = metadata p ∧
       statInfo out = statistics (vecTempArray out).
Proof.
  unfold decode. destruct (locate_payload file) as [f|p]; [done|].
  destruct (Z.eqb_spec (Z.of_N (embedded_width p)) width) as [Hw|];
    [|done].
  destruct (Z.eqb_spec (Z.of_N (embedded_height p)) height) as [Hh|];
    [|done].
  destruct (Z.eqb_spec (Z.of_nat (length (raw p))) (width * height))
    as [Hn|]; [|done].
  simpl. intros [= <-]. by exists p.
Qed.

(** Status 0 is returned by the success path only. *)
Lemma parse_zero fs path width height out out' fs' :
  ExtractInfraredTemperatures locate_payload to_temperature statistics
    status_of unspecified fs path width height out = (0, out', fs') →
  ∃ file, fs !! path = Some file ∧
          decode locate_payload to_temperature statistics width height file
            = inr out'.
Proof using status_of_nonzero.
  unfold ExtractInfraredTemperatures.
  destruct (fs !! path) as [file|]; [|intros [= Hs _ _]; by destruct
    (status_of_nonzero FileMissing)].
  destruct (decode _ _ _ _ _ file) as [f|r] eqn:Hd.
  - intros [= Hs _ _]. by destruct (status_of_nonzero f).
  - intros [= <- _]. by exists file.
Qed.

(** C5. Whenever the parser returns status 0 for declared dimensions
    [width] and [height], the temperature field it leaves has exactly
    [height] rows and each row has exactly [width] columns, so
    [width * height] entries in all; for the sample call, 512 rows of 640
    samples, 327,680 entries. *)
Theorem field_dimensions fs path width height out out' fs' :
  ExtractInfraredTemperatures locate_payload to_temperature statistics
    status_of unspecified fs path width height out = (0, out', fs') →
  Z.of_nat (length (vecTempArray out')) = height ∧
  Forall (λ row, Z.of_nat (length row) = width) (vecTempArray out') ∧
  Z.of_nat (length (concat (vecTempArray out'))) = width * height ∧
  (width = 640 → height = 512 →
   Z.of_nat (length (vecTempArray out')) = 512 ∧
   Forall (λ row, Z.of_nat (length row) = 640) (vecTempArray out') ∧
   Z.of_nat (length (concat (vecTempArray out'))) = 327680).
Proof using status_of_nonzero.
  intros Hok. destruct (parse_zero _ _ _ _ _ _ _ Hok) as (file & _ & Hd).
  destruct (decode_inr _ _ _ _ Hd) as (p & _ & Hw & Hh & Hn & Hf & _).
  assert (0 ≤ width) as Hw0 by lia. assert (0 ≤ height) as Hh0 by lia.
  set (samples := to_temperature (metadata p) <$> raw p) in *.
  assert (length samples = (Z.to_nat height * Z.to_nat width)%nat) as Hlen.
  { unfold samples. rewrite length_fmap. nia. }
  assert (Forall (λ row, length row = Z.to_nat width) (vecTempArray out'))
    as Hrows.
  { rewrite Hf. apply rows_width. lia. }
  assert (length (vecTempArray out') = Z.to_nat height) as Hheight.
  { rewrite Hf. apply rows_length. }
  assert (length (concat (vecTempArray out'))
          = (Z.to_nat height * Z.to_nat width)%nat) as Hall.
  { by rewrite Hf, concat_rows. }
  assert (Forall (λ row, Z.of_nat (length row) = width) (vecTempArray out'))
    as Hcols.
  { eapply Forall_impl; [exact Hrows|]. simpl. intros row Hrow. lia. }
  split_and!; [lia|done|nia|].
  intros Hw' Hh'. split_and!; [lia|by rewrite <- Hw'|nia].
Qed.

End ParserProperties.

(** * The statements on the sample instances *)
Section Instances.
Import Driver Parser Sample.

Lemma toy_status_nonzero (f : Failure) : toy_status f ≠ 0.
Proof. done. Qed.

Lemma success_token_witness :
  sample_status sdk_ok 7 = 0 ∧
  writes (trace (run_main sdk_ok 7 1 ["sample.exe"]))
    = ["parse ok." +:+ CRLF] ∧
  stdout (trace (run_main sdk_ok 7 1 ["sample.exe"])) = "parse ok." +:+ CRLF.
Proof.
  split; [reflexivity|].
  apply (success_token sdk_ok 7 1 ["sample.exe"]). reflexivity.
Defined.

Lemma failure_silence_witness :
  sample_status (sdk_dirty (-3)) 7 ≠ 0 ∧
  writes (trace (run_main (sdk_dirty (-3)) 7 1 ["sample.exe"]))
    = ["parse fail." +:+ CRLF] ∧
  stdout (trace (run_main (sdk_dirty (-3)) 7 1 ["sample.exe"]))
    = "parse fail." +:+ CRLF ∧
  loads (trace (run_main (sdk_dirty (-3)) 7 1 ["sample.exe"])) = [].
Proof.
  split; [discriminate|].
  apply (failure_silence (sdk_dirty (-3)) 7 1 ["sample.exe"]). discriminate.
Defined.

(** A library that leaves the receivers alone and one that scribbles on
    them, failing with the same status, from different initial [statInfo]
    and with different command lines. *)
Lemma output_depends_on_status_only_witness :
  stdout (trace (run_main (sdk_fail 2) 0 1 ["sample.exe"])) =
    stdout (trace (run_main (sdk_dirty 2) 9 3 ["sample.exe"; "-v"; "x"])) ∧
  value (run_main (sdk_fail 2) 0 1 ["sample.exe"]) =
    value (run_main (sdk_dirty 2) 9 3 ["sample.exe"; "-v"; "x"]) ∧
  loads (trace (run_main (sdk_fail 2) 0 1 ["sample.exe"])) = [] ∧
  loads (trace (run_main (sdk_dirty 2) 9 3 ["sample.exe"; "-v"; "x"])) = [].
Proof.
  apply (output_depends_on_status_only (sdk_fail 2) (sdk_dirty 2) 0 9
           1 ["sample.exe"] 3 ["sample.exe"; "-v"; "x"]).
  reflexivity.
Defined.

(** The 3 x 2 still of [toy_fs], parsed with its own dimensions. *)
Lemma field_dimensions_witness :
  let out' := (toy_parser toy_fs "ir.jpg" 3 2 (fresh_receivers 0)).1.2 in
  Z.of_nat (length (vecTempArray out')) = 2 ∧
  Forall (λ row, Z.of_nat (length row) = 3) (vecTempArray out') ∧
  Z.of_nat (length (concat (vecTempArray out'))) = 3 * 2.
Proof.
  intros out'.
  destruct (field_dimensions toy_locate toy_temperature toy_statistics
              toy_status toy_unspecified toy_status_nonzero
              toy_fs "ir.jpg" 3 2 (fresh_receivers 0) out' toy_fs)
    as (Hrows & Hcols & Hall & _).
  - vm_compute. reflexivity.
  - exact (conj Hrows (conj Hcols Hall)).
Defined.

(** Scenario S2 (missing file) and S3 (dimension mismatch: the only still
    is 3 x 2, the driver declares 640 x 512), driver and parser linked. *)
Example scenario_missing_file :
  stdout (trace (run_main (linked toy_locate toy_temperature toy_statistics
                                  toy_status toy_unspecified ∅) 0 1 []))
    = "parse fail." +:+ CRLF.
Proof. reflexivity. Qed.

Example scenario_dimension_mismatch :
  stdout (trace (run_main
                   (linked toy_locate toy_temperature toy_statistics
                           toy_status toy_unspecified
                           {[ "../test/IRX_0001_south.jpg" :=
                                [Byte.x03; Byte.x02; Byte.x0a; Byte.x0b;
                                 Byte.x0c; Byte.x14; Byte.x15; Byte.x16] ]})
                   0 1 []))
    = "parse fail." +:+ CRLF.
Proof. vm_compute. reflexivity. Qed.

End Instances.

(** * Further properties of the driver *)
Section DriverFurther.
Import Driver.
Context {TempStatInfo Autel_IR_INFO_S : Type}.

(** X2. Standard output carries one bit of the status and no more: two runs
    write the same characters exactly when their statuses are both zero or
    both non-zero.  Distinct failure codes cannot be told apart from the
    output, and success can always be told from failure. *)
Theorem stdout_reveals_success_only
    (sdk1 sdk2 : SDK TempStatInfo Autel_IR_INFO_S)
    (stat1 stat2 : TempStatInfo) argc1 argv1 argc2 argv2 :
  stdout (trace (run_main sdk1 stat1 argc1 argv1)) =
    stdout (trace (run_main sdk2 stat2 argc2 argv2))
  ↔ (sample_status sdk1 stat1 = 0 ↔ sample_status sdk2 stat2 = 0).
Proof.
  rewrite !run_main_eq. simpl.
  destruct (decide (sample_status sdk1 stat1 = 0)) as [H1|H1],
           (decide (sample_status sdk2 stat2 = 0)) as [H2|H2].
  - rewrite H1, H2. by split.
  - rewrite H1, (verdict_nonzero _ H2).
    split; [discriminate|]. intros Hiff. by destruct H2, Hiff as [-> _].
  - rewrite H2, (verdict_nonzero _ H1).
    split; [discriminate|]. intros Hiff. by destruct H1, Hiff as [_ ->].
  - rewrite (verdict_nonzero _ H1), (verdict_nonzero _ H2).
    split; [|done]. intros _. by split.
Qed.

End DriverFurther.
